(** * SaveToDatabase: the save dialog of the tool trainer

    A shallow embedding of [src/components/ToolTrainer/SaveToDatabase.tsx]:
    the component state, the message filter and payload built by
    [handleSave], the handler itself as a trace of observable effects
    (state setter calls, console output, API calls, toasts), the
    [disabled] expression and the text of the save button, the effect that
    seeds the name and the tags when the dialog opens, the tags field, and
    the preview of the messages with its chunk count. *)

From Stdlib Require Import String Ascii DecimalString DecimalPos DecimalZ.
From Stdlib Require Import Bool NArith ZArith Lia List.
Import ListNotations.

Set Implicit Arguments.

(** ** JavaScript strings

    A JavaScript string is a sequence of UTF-16 code units.  String
    literals of the source are all ASCII and are written with [lit]. *)

Definition code_unit := N.
Definition jsstring := list code_unit.

Definition lit (s : string) : jsstring :=
  map N_of_ascii (list_ascii_of_string s).

Definition jsstring_eqb (s t : jsstring) : bool :=
  if list_eq_dec N.eq_dec s t then true else false.

(** [s === ""], and the truthiness of a string value: every string but
    the empty one is truthy. *)
Definition is_empty (s : jsstring) : bool :=
  match s with [] => true | _ :: _ => false end.

Definition truthy (s : jsstring) : bool := negb (is_empty s).

(** The code units removed by [String.prototype.trim]: the WhiteSpace and
    LineTerminator productions of ECMA-262 (TAB, LF, VT, FF, CR, SP, NBSP,
    the other space separators, LS, PS and the byte order mark). *)
Definition isWhiteSpace (c : code_unit) : bool :=
  ((9 <=? c) && (c <=? 13) || (c =? 32) || (c =? 160) || (c =? 0x1680)
   || (0x2000 <=? c) && (c <=? 0x200A) || (c =? 0x2028) || (c =? 0x2029)
   || (c =? 0x202F) || (c =? 0x205F) || (c =? 0x3000) || (c =? 0xFEFF))%N.

Fixpoint trimStart (s : jsstring) : jsstring :=
  match s with
  | [] => []
  | c :: r => if isWhiteSpace c then trimStart r else s
  end.

Definition trimEnd (s : jsstring) : jsstring := rev (trimStart (rev s)).

Definition trim (s : jsstring) : jsstring := trimEnd (trimStart s).

(** The string of an integral Number, as a template literal prints it. *)
Definition number_to_string (n : Z) : jsstring :=
  lit (NilZero.string_of_int (Z.to_int n)).

(** [s.split(sep)] for a separator of one code unit: the pieces between
    the separators, of which there is always at least one. *)
Fixpoint split (sep : code_unit) (s : jsstring) : list jsstring :=
  match s with
  | [] => [[]]
  | c :: r =>
      if (c =? sep)%N then [] :: split sep r
      else match split sep r with
           | [] => [[c]]
           | piece :: pieces => (c :: piece) :: pieces
           end
  end.

(** [l.join(sep)] *)
Fixpoint join (sep : jsstring) (l : list jsstring) : jsstring :=
  match l with
  | [] => []
  | [s] => s
  | s :: r => s ++ sep ++ join sep r
  end.

(** [s.substring(0, n)] *)
Definition substring0 (n : nat) (s : jsstring) : jsstring := firstn n s.

(** [l.map((x, i) => ...)] and [l.flatMap((x, i) => ...)] see each element
    with its index. *)
Definition indexed {A} (l : list A) : list (nat * A) :=
  combine (seq 0 (length l)) l.

(** ** Data model ([types/toolTrainer] and the props of the component) *)

(** [chunk.kind] is read either as a number (an ordinal of the [ChunkKind]
    enum) or as a label, and may be missing. *)
Inductive Kind :=
| KindOrdinal (n : Z)
| KindLabel (s : jsstring)
| KindMissing.

Record Chunk := mkChunk {
  kind : Kind;
  text : option jsstring            (* [None]: missing text *)
}.

(** A [Content] owns its [chunks]; the properties that this file never
    reads are kept together in [fields], of a type [F] left open. *)
Record Content (F : Type) := mkContent {
  fields : F;
  chunks : list Chunk
}.

Section Filter.
Variable F : Type.

(** [(chunk) => chunk.text && chunk.text.trim() !== ""] *)
Definition keepChunk (chunk : Chunk) : bool :=
  match text chunk with
  | None => false
  | Some t => truthy t && negb (jsstring_eqb (trim t) (lit ""))
  end.

(** [(content) => ({ ...content, chunks: content.chunks.filter(...) })] *)
Definition filterChunks (content : Content F) : Content F :=
  {| fields := fields content;
     chunks := filter keepChunk (chunks content) |}.

(** [(content) => content.chunks.length > 0] *)
Definition hasChunks (content : Content F) : bool :=
  0 <? length (chunks content).

(** [messages.map(...).filter(...)] *)
Definition filteredMessages (messages : list (Content F)) : list (Content F) :=
  filter hasChunks (map filterChunks messages).

(** The filter as the specification words it: keep, in each [Content],
    the chunks whose text trimmed is non-empty, in their order; drop a
    [Content] left with no chunk. *)
Definition nonBlankText (chunk : Chunk) : bool :=
  match text chunk with
  | None => false
  | Some t => negb (is_empty (trim t))
  end.

Fixpoint specFilter (messages : list (Content F)) : list (Content F) :=
  match messages with
  | [] => []
  | content :: rest =>
      match filter nonBlankText (chunks content) with
      | [] => specFilter rest
      | kept => {| fields := fields content; chunks := kept |} :: specFilter rest
      end
  end.

(** A message that the filter keeps whole. *)
Definition clean (content : Content F) : Prop :=
  chunks content <> [] /\ Forall (fun chunk => keepChunk chunk = true) (chunks content).

End Filter.

(** ** Component state, props, payload and toasts *)

Inductive SaveMode := database | json.

(** The [useState] cells of the component, under the names the source
    gives them. *)
Record State := mkState {
  isOpen : bool;
  isSaving : bool;
  name : jsstring;
  description : jsstring;
  localTags : list jsstring;
  saveMode : SaveMode;
  filePath : jsstring
}.

Module Props.
(** [SaveToDatabaseProps], with the defaults of the destructuring applied. *)
Record t (F : Type) := make {
  messages : list (Content F);
  tags : list jsstring;
  exampleName : jsstring
}.
End Props.

Module Payload.
(** The object literal [payload] of [handleSave]; [Id] is the type of the
    entries of the two id arrays, which the source only ever leaves empty. *)
Record t (F Id : Type) := make {
  name : jsstring;
  description : jsstring;
  messages : list (Content F);
  tags : list jsstring;
  is_global : bool;
  is_eval : bool;
  readable_by_user_ids : list Id;
  readable_by_group_ids : list Id
}.
End Payload.

Module Toast.
Inductive Variant := default | destructive.

(** The argument of [toast]; [variant] is optional. *)
Record t := make {
  title : jsstring;
  description : jsstring;
  variant : option Variant
}.
End Toast.

(** ** Collaborators *)

(** What a [catch] clause can receive: an [Error] instance with its
    [message], or any other thrown value. *)
Inductive Thrown :=
| ErrorInstance (message : jsstring)
| OtherValue.

(** How an awaited promise settles. *)
Inductive Outcome :=
| Resolved
| Rejected (error : Thrown).

(** [examplesApi]: the two persistence operations, each described by how
    the promise it returns settles. *)
Record ExamplesApi (F Id : Type) := mkApi {
  createExample : Payload.t F Id -> Outcome;
  saveToJSON : jsstring -> Payload.t F Id -> Outcome
}.

Inductive ApiCall (F Id : Type) :=
| CreateExample (payload : Payload.t F Id)
| SaveToJSON (path : jsstring) (payload : Payload.t F Id).

(** ** Observable effects of a handler, in program order *)

Inductive Event (F Id : Type) :=
| SetIsOpen (b : bool)
| SetIsSaving (b : bool)
| SetName (s : jsstring)
| SetDescription (s : jsstring)
| SetLocalTags (l : list jsstring)
| SetFilePath (s : jsstring)
| ConsoleLog (payload : Payload.t F Id)
| ConsoleError (error : Thrown)
| Await (call : ApiCall F Id) (outcome : Outcome)
| Notify (toast : Toast.t).

Arguments SetIsOpen {F Id}.
Arguments SetIsSaving {F Id}.
Arguments SetName {F Id}.
Arguments SetDescription {F Id}.
Arguments SetLocalTags {F Id}.
Arguments SetFilePath {F Id}.
Arguments ConsoleError {F Id}.
Arguments Notify {F Id}.

(** ** A writer monad with the completions of a JavaScript block

    A block completes normally, by [return], or by throwing; whatever it
    did before is in the trace. *)

Inductive Completion (A : Type) :=
| Normal (a : A)
| Return
| Throw (error : Thrown).

Arguments Return {A}.
Arguments Throw {A}.

Definition Handler (E A : Type) : Type := list E * Completion A.

Section HandlerMonad.
Variable E : Type.

Definition ret {A} (a : A) : Handler E A := ([], Normal a).

Definition bind {A B} (m : Handler E A) (k : A -> Handler E B) : Handler E B :=
  match m with
  | (t, Normal a) => let (t', c) := k a in (t ++ t', c)
  | (t, Return) => (t, Return)
  | (t, Throw error) => (t, Throw error)
  end.

Definition emit (e : E) : Handler E unit := ([e], Normal tt).

(** [return;] *)
Definition return_ {A} : Handler E A := ([], Return).

Definition throw {A} (error : Thrown) : Handler E A := ([], Throw error).

(** [try { body } catch (error) { handler } finally { finalizer }]: the
    handler runs when the body throws, the finalizer runs in every case,
    and an abrupt finalizer overrides the completion reached before it. *)
Definition try_catch_finally {A}
    (body : Handler E A) (handler : Thrown -> Handler E A)
    (finalizer : Handler E unit) : Handler E A :=
  let (t1, c1) := body in
  let (t2, c2) := match c1 with
                  | Throw error => handler error
                  | _ => ([], c1)
                  end in
  let (t3, c3) := finalizer in
  (t1 ++ t2 ++ t3,
   match c3 with
   | Normal _ => c2
   | Return => Return
   | Throw error => Throw error
   end).
End HandlerMonad.

Arguments ret {E A}.
Arguments return_ {E A}.
Arguments throw {E A}.

Declare Scope handler_scope.
Delimit Scope handler_scope with handler.
Notation "x <- m ;; k" := (bind m (fun x => k))
  (at level 100, m at next level, right associativity) : handler_scope.
Notation "m ;; k" := (bind m (fun _ => k))
  (at level 100, right associativity) : handler_scope.
Notation "'try' b 'catch' h 'finally' f" := (try_catch_finally b h f)
  (at level 100, b at level 200, h at level 200, f at level 200) : handler_scope.

(** ** The component *)

Section SaveToDatabase.
Variables F Id : Type.
Variable examplesApi : ExamplesApi F Id.
Variable now : Z.                      (* what [Date.now()] returns *)
Variable props : Props.t F.
Variable st : State.                   (* the state of the current render *)

Local Open Scope handler_scope.

Local Notation "'Ev'" := (Event F Id).

Definition setIsOpen (b : bool) : Handler Ev unit := emit (SetIsOpen b).
Definition setIsSaving (b : bool) : Handler Ev unit := emit (SetIsSaving b).
Definition setName (s : jsstring) : Handler Ev unit := emit (SetName s).
Definition setDescription (s : jsstring) : Handler Ev unit := emit (SetDescription s).
Definition setLocalTags (l : list jsstring) : Handler Ev unit := emit (SetLocalTags l).
Definition setFilePath (s : jsstring) : Handler Ev unit := emit (SetFilePath s).
Definition toast (t : Toast.t) : Handler Ev unit := emit (Notify t).
Definition console_log (payload : Payload.t F Id) : Handler Ev unit :=
  emit (ConsoleLog payload).
Definition console_error (error : Thrown) : Handler Ev unit :=
  emit (ConsoleError error).

(** [await call]: the call is made, and the handler goes on when its
    promise resolves or throws what it rejects with. *)
Definition await (call : ApiCall F Id) : Handler Ev unit :=
  let outcome := match call with
                 | CreateExample payload => createExample examplesApi payload
                 | SaveToJSON path payload => saveToJSON examplesApi path payload
                 end in
  emit (Await call outcome) ;;
  match outcome with
  | Resolved => ret tt
  | Rejected error => throw error
  end.

(** [a || b] on strings. *)
Definition or_else (a b : jsstring) : jsstring := if truthy a then a else b.

(** The object literal [payload]. *)
Definition payload : Payload.t F Id :=
  {| Payload.name := or_else (name st) (lit "Example " ++ number_to_string now);
     Payload.description := or_else (description st) (lit "");
     Payload.messages := filteredMessages (Props.messages props);
     Payload.tags := localTags st;
     Payload.is_global := true;
     Payload.is_eval := false;
     Payload.readable_by_user_ids := [];
     Payload.readable_by_group_ids := [] |}.

Definition handleSave : Handler Ev unit :=
  setIsSaving true ;;
  try (
    console_log payload ;;
    match saveMode st with
    | database =>
        await (CreateExample payload) ;;
        toast {| Toast.title := lit "Success";
                 Toast.description := lit "Example saved to database successfully";
                 Toast.variant := None |}
    | json =>
        (if negb (truthy (trim (filePath st))) then
           toast {| Toast.title := lit "Error";
                    Toast.description := lit "Please provide a file path for the JSON file.";
                    Toast.variant := Some Toast.destructive |} ;;
           setIsSaving false ;;
           return_
         else ret tt) ;;
        await (SaveToJSON (filePath st) payload) ;;
        toast {| Toast.title := lit "Success";
                 Toast.description := lit "Example saved to JSON file successfully";
                 Toast.variant := None |}
    end ;;
    setIsOpen false ;;
    setName (lit "") ;;
    setDescription (lit "") ;;
    setLocalTags [] ;;
    setFilePath (lit "")
  ) catch (fun error =>
    console_error error ;;
    toast {| Toast.title := lit "Error";
             Toast.description :=
               match error with
               | ErrorInstance message => message
               | OtherValue => lit "Failed to save example"
               end;
             Toast.variant := Some Toast.destructive |}
  ) finally (
    setIsSaving false
  ).

(** [disabled={isSaving || !name.trim() || messages.length === 0}] *)
Definition saveDisabled : bool :=
  isSaving st || negb (truthy (trim (name st)))
  || (length (Props.messages props) =? 0).

(** *** What a run leaves behind *)

(** The state setters, applied in the order they were called. *)
Definition apply (s : State) (e : Ev) : State :=
  match e with
  | SetIsOpen b =>
      mkState b (isSaving s) (name s) (description s) (localTags s) (saveMode s) (filePath s)
  | SetIsSaving b =>
      mkState (isOpen s) b (name s) (description s) (localTags s) (saveMode s) (filePath s)
  | SetName v =>
      mkState (isOpen s) (isSaving s) v (description s) (localTags s) (saveMode s) (filePath s)
  | SetDescription v =>
      mkState (isOpen s) (isSaving s) (name s) v (localTags s) (saveMode s) (filePath s)
  | SetLocalTags v =>
      mkState (isOpen s) (isSaving s) (name s) (description s) v (saveMode s) (filePath s)
  | SetFilePath v =>
      mkState (isOpen s) (isSaving s) (name s) (description s) (localTags s) (saveMode s) v
  | _ => s
  end.

Definition stateAfter (trace : list Ev) : State := fold_left apply trace st.

Definition toasts (trace : list Ev) : list Toast.t :=
  flat_map (fun e => match e with Notify t => [t] | _ => [] end) trace.

Definition apiCalls (trace : list Ev) : list (ApiCall F Id) :=
  flat_map (fun e => match e with Await call _ => [call] | _ => [] end) trace.

Definition save : list Ev := fst handleSave.
End SaveToDatabase.

(** Two states that agree on every cell but [filePath]. *)
Definition sameButFilePath (s1 s2 : State) : Prop :=
  isOpen s1 = isOpen s2 /\ isSaving s1 = isSaving s2 /\ name s1 = name s2
  /\ description s1 = description s2 /\ localTags s1 = localTags s2
  /\ saveMode s1 = saveMode s2.

(** The payloads a trace shows: the one logged and the ones sent. *)
Definition payloads {F Id} (trace : list (Event F Id)) : list (Payload.t F Id) :=
  flat_map (fun e => match e with
                     | ConsoleLog p => [p]
                     | Await (CreateExample p) _ => [p]
                     | Await (SaveToJSON _ p) _ => [p]
                     | _ => []
                     end) trace.

(** ** The rest of the dialog: seeding, the tags field, the preview *)

Section Dialog.
Variables F Id : Type.
(** The reverse mapping of the numeric enum [ChunkKind]: the name of an
    ordinal, if it has one. *)
Variable ChunkKind : Z -> option jsstring.
Variable props : Props.t F.
Variable st : State.

Local Open Scope handler_scope.
Local Notation "'Ev'" := (Event F Id).

(** The initial values of the [useState] cells. *)
Definition initialState : State :=
  {| isOpen := false;
     isSaving := false;
     name := Props.exampleName props;
     description := lit "";
     localTags := Props.tags props;
     saveMode := database;
     filePath := lit "" |}.

(** The body of the effect on [[isOpen, exampleName, tags]]. *)
Definition openEffect : Handler Ev unit :=
  if isOpen st then
    setName F Id (Props.exampleName props) ;;
    setLocalTags F Id (Props.tags props)
  else ret tt.

(** [onOpenChange={setIsOpen}], and the Cancel button. *)
Definition onOpenChange (open : bool) : Handler Ev unit := setIsOpen F Id open.
Definition cancel : Handler Ev unit := setIsOpen F Id false.

(** The tags field: [value={localTags.join(", ")}]. *)
Definition tagsValue : jsstring := join (lit ", ") (localTags st).

(** [e.target.value.split(",").map((tag) => tag.trim()).filter((tag) => tag)] *)
Definition parseTags (value : jsstring) : list jsstring :=
  filter truthy (map trim (split 44%N value)).

Definition tagsOnChange (value : jsstring) : Handler Ev unit :=
  setLocalTags F Id (parseTags value).

(** [messages.reduce((acc, msg) => acc + (msg.chunks?.length || 0), 0)];
    [chunks] is always there in this model, and a length of 0 is the 0 that
    [||] falls back to. *)
Definition chunkCount (messages : list (Content F)) : nat :=
  fold_left (fun acc msg => acc + length (chunks msg)) messages 0.

(** The label and the text of a row of the preview. *)
Definition kindLabel (chunk : Chunk) : jsstring :=
  match kind chunk with
  | KindOrdinal n =>
      match ChunkKind n with
      | Some label => or_else label (lit "CONTENT")
      | None => lit "CONTENT"
      end
  | KindLabel label => or_else label (lit "CONTENT")
  | KindMissing => lit "CONTENT"
  end.

Definition excerpt (chunk : Chunk) : jsstring :=
  match text chunk with
  | Some t => if truthy t then substring0 100 t else lit ""
  | None => lit ""
  end.

Record Row := mkRow {
  key : jsstring;
  label : jsstring;
  body : jsstring
}.

(** [`${mIdx}-${cIdx}`] *)
Definition rowKey (mIdx cIdx : nat) : jsstring :=
  number_to_string (Z.of_nat mIdx) ++ lit "-" ++ number_to_string (Z.of_nat cIdx).

(** [messages.flatMap((msg, mIdx) => msg.chunks.map((chunk, cIdx) => ...))] *)
Definition previewRows (messages : list (Content F)) : list Row :=
  flat_map (fun '(mIdx, msg) =>
    map (fun '(cIdx, chunk) =>
      {| key := rowKey mIdx cIdx;
         label := kindLabel chunk;
         body := excerpt chunk |})
      (indexed (chunks msg)))
    (indexed messages).

(** What the preview box holds: the rows, or "No messages to save". *)
Inductive Preview :=
| Rows (rows : list Row)
| NoMessages.

Definition preview : Preview :=
  if 0 <? length (Props.messages props)
  then Rows (previewRows (Props.messages props))
  else NoMessages.

(** The text of the save button. *)
Definition saveLabel : jsstring :=
  if isSaving st then lit "Saving..."
  else match saveMode st with
       | database => lit "Save to Database"
       | json => lit "Save to Markdown"
       end.
End Dialog.

(** The keys of the rows of [messages], were the first message to have
    index [k]. *)
Definition rowKeysFrom {F} (k : nat) (messages : list (Content F)) : list jsstring :=
  flat_map (fun '(mIdx, msg) =>
    map (fun '(cIdx, _) => rowKey mIdx cIdx) (indexed (chunks msg)))
    (combine (seq k (length messages)) messages).

(** A tag as the tags field produces them: not empty, nothing to trim, no
    comma. *)
Definition tidy (tag : jsstring) : Prop :=
  tag <> [] /\ trim tag = tag /\ ~ In 44%N tag.

(** ** Sample inputs: the scenarios of the specification *)

Module Sample.
(** An API whose calls all resolve, and one whose calls all reject with
    [Error("network down")]. *)
Definition online : ExamplesApi unit Z :=
  {| createExample := fun _ => Resolved;
     saveToJSON := fun _ _ => Resolved |}.

Definition offline : ExamplesApi unit Z :=
  {| createExample := fun _ => Rejected (ErrorInstance (lit "network down"));
     saveToJSON := fun _ _ => Rejected (ErrorInstance (lit "network down")) |}.

(** [messages=[{chunks:[{text:"Hello"},{text:""}]}]] *)
Definition props : Props.t unit :=
  {| Props.messages :=
       [ {| fields := tt;
            chunks := [ {| kind := KindLabel (lit "CONTENT"); text := Some (lit "Hello") |};
                        {| kind := KindLabel (lit "CONTENT"); text := Some (lit "") |} ] |} ];
     Props.tags := [];
     Props.exampleName := lit "Greeting" |}.

(** The dialog open on "Greeting", in database mode. *)
Definition greeting : State :=
  {| isOpen := true; isSaving := false; name := lit "Greeting";
     description := lit ""; localTags := []; saveMode := database;
     filePath := lit "" |}.

(** The same with a file path typed in, which database mode never reads. *)
Definition greetingWithPath : State :=
  {| isOpen := true; isSaving := false; name := lit "Greeting";
     description := lit ""; localTags := []; saveMode := database;
     filePath := lit "/mnt/examples/example1.json" |}.

(** Json mode with a file path of two spaces. *)
Definition jsonBlank : State :=
  {| isOpen := true; isSaving := false; name := lit "Greeting";
     description := lit ""; localTags := []; saveMode := json;
     filePath := lit "  " |}.

(** Json mode with a file path. *)
Definition jsonPath : State :=
  {| isOpen := true; isSaving := false; name := lit "Greeting";
     description := lit ""; localTags := []; saveMode := json;
     filePath := lit "/mnt/examples/example1.json" |}.

(** A save in flight. *)
Definition saving : State :=
  {| isOpen := true; isSaving := true; name := lit "Greeting";
     description := lit ""; localTags := []; saveMode := database;
     filePath := lit "" |}.

(** The name left empty. *)
Definition unnamed : State :=
  {| isOpen := true; isSaving := false; name := lit "";
     description := lit ""; localTags := []; saveMode := database;
     filePath := lit "" |}.

(** [Date.now()] at the time of the save. *)
Definition now : Z := 1700000000000.

(** Two tags typed in. *)
Definition tagged : State :=
  {| isOpen := true; isSaving := false; name := lit "Greeting";
     description := lit ""; localTags := [lit "alpha"; lit "beta"];
     saveMode := database; filePath := lit "" |}.

(** The chunk of "Hello", and props with that chunk alone. *)
Definition hello : Chunk :=
  {| kind := KindLabel (lit "CONTENT"); text := Some (lit "Hello") |}.

Definition cleanProps : Props.t unit :=
  {| Props.messages := [ {| fields := tt; chunks := [hello] |} ];
     Props.tags := [];
     Props.exampleName := lit "Greeting" |}.
End Sample.

(** * Properties *)

(** ** Strings *)

Lemma jsstring_eqb_nil (s : jsstring) : jsstring_eqb s (lit "") = is_empty s.
Proof.
  unfold jsstring_eqb; destruct (list_eq_dec N.eq_dec s (lit "")) as [-> | Hne].
  - reflexivity.
  - destruct s; [ now elim Hne | reflexivity ].
Qed.

Lemma is_empty_true (s : jsstring) : is_empty s = true <-> s = [].
Proof. destruct s; simpl; split; congruence. Qed.

Lemma is_empty_false (s : jsstring) : is_empty s = false <-> s <> [].
Proof. destruct s; simpl; split; congruence. Qed.

Lemma trimStart_blank (s : jsstring) :
  trimStart s = [] <-> forallb isWhiteSpace s = true.
Proof.
  induction s as [| c r IH]; simpl; [ tauto | ].
  destruct (isWhiteSpace c); simpl; [ exact IH | split; discriminate ].
Qed.

Lemma trimStart_head (s : jsstring) c r :
  trimStart s = c :: r -> isWhiteSpace c = false.
Proof.
  induction s as [| d s IH]; simpl; [ discriminate | ].
  destruct (isWhiteSpace d) eqn:Hd; [ exact IH | congruence ].
Qed.

(** Trimming leaves nothing exactly of the strings made of white space. *)
Lemma trim_blank (s : jsstring) :
  trim s = [] <-> forallb isWhiteSpace s = true.
Proof.
  unfold trim, trimEnd; split.
  - intros H. apply trimStart_blank.
    destruct (trimStart s) as [| c r] eqn:Hs; [ reflexivity | exfalso ].
    apply trimStart_head in Hs.
    apply (f_equal (@rev _)) in H; rewrite rev_involutive in H; simpl in H.
    apply trimStart_blank in H.
    rewrite forallb_app in H; simpl in H.
    rewrite Hs, andb_false_r in H; discriminate.
  - intros H. apply trimStart_blank in H. now rewrite H.
Qed.

Lemma trim_nil : trim [] = [].
Proof. reflexivity. Qed.


(** ** The message filter *)

Section FilterProperties.
Variable F : Type.
Implicit Types (chunk : Chunk) (content : Content F) (messages : list (Content F)).

Lemma keepChunk_nonBlankText chunk : keepChunk chunk = nonBlankText chunk.
Proof.
  unfold keepChunk, nonBlankText; destruct (text chunk) as [t |]; [ | reflexivity ].
  rewrite jsstring_eqb_nil; destruct t; reflexivity.
Qed.

Lemma keepChunk_iff chunk :
  keepChunk chunk = true <-> exists t, text chunk = Some t /\ trim t <> [].
Proof.
  rewrite keepChunk_nonBlankText; unfold nonBlankText.
  destruct (text chunk) as [t |].
  - rewrite negb_true_iff, is_empty_false; split.
    + intros H; now exists t.
    + now intros (t' & [= <-] & H).
  - split; [ discriminate | now intros (t' & [=] & _) ].
Qed.

Lemma filter_keepChunk_spec (l : list Chunk) :
  filter keepChunk l = filter nonBlankText l.
Proof. apply filter_ext, keepChunk_nonBlankText. Qed.

Lemma hasChunks_iff content : hasChunks content = true <-> chunks content <> [].
Proof.
  unfold hasChunks; destruct (chunks content); simpl; split; intros H;
    try reflexivity; try discriminate; now elim H.
Qed.

Lemma filteredMessages_cons content messages :
  filteredMessages (content :: messages) =
  match filter keepChunk (chunks content) with
  | [] => filteredMessages messages
  | kept => {| fields := fields content; chunks := kept |} :: filteredMessages messages
  end.
Proof.
  unfold filteredMessages; cbn [map filter].
  replace (filterChunks content)
    with {| fields := fields content; chunks := filter keepChunk (chunks content) |}
    by reflexivity.
  unfold hasChunks at 1; cbn [chunks].
  destruct (filter keepChunk (chunks content)); reflexivity.
Qed.

Lemma filteredMessages_clean messages : Forall (@clean F) (filteredMessages messages).
Proof.
  induction messages as [| content messages IH]; [ constructor | ].
  rewrite filteredMessages_cons.
  destruct (filter keepChunk (chunks content)) as [| chunk kept] eqn:Hk; [ exact IH | ].
  constructor; [ | exact IH ].
  split; simpl; [ discriminate | ].
  rewrite <- Hk. apply Forall_forall. intros x Hx. now apply filter_In in Hx.
Qed.

Lemma filter_all {A} (p : A -> bool) (l : list A) :
  Forall (fun x => p x = true) l -> filter p l = l.
Proof. induction 1 as [| x l Hx _ IH]; simpl; [ | rewrite Hx, IH ]; reflexivity. Qed.

Lemma filteredMessages_fixed messages :
  Forall (@clean F) messages -> filteredMessages messages = messages.
Proof.
  induction 1 as [| content messages [Hne Hall] _ IH]; [ reflexivity | ].
  rewrite filteredMessages_cons, (filter_all _ Hall), IH.
  destruct content as [f [| chunk rest]]; simpl in *; [ now elim Hne | reflexivity ].
Qed.

(** C1. The filtering step of [handleSave] is the filter the specification
    describes: in each [Content] exactly the chunks whose text is present
    and non-empty once trimmed stay, in their order, and a [Content] left
    without chunks is dropped.  Every retained [Content] has a non-empty
    chunk list and every retained chunk a text that trims to a non-empty
    string. *)
Theorem filteredMessages_spec messages :
  filteredMessages messages = specFilter messages
  /\ Forall (fun content =>
       chunks content <> []
       /\ Forall (fun chunk => exists t, text chunk = Some t /\ trim t <> [])
            (chunks content))
     (filteredMessages messages).
Proof.
  split.
  - induction messages as [| content messages IH]; [ reflexivity | ].
    rewrite filteredMessages_cons, filter_keepChunk_spec, IH. reflexivity.
  - eapply Forall_impl; [ | apply filteredMessages_clean ].
    intros content [Hne Hall]; split; [ exact Hne | ].
    eapply Forall_impl; [ | exact Hall ].
    intros chunk; apply keepChunk_iff.
Qed.

(** C9. Filtering is idempotent: filtering an already filtered list of
    messages changes nothing. *)
Theorem filteredMessages_idempotent messages :
  filteredMessages (filteredMessages messages) = filteredMessages messages.
Proof. apply filteredMessages_fixed, filteredMessages_clean. Qed.
End FilterProperties.

(** ** The five runs of [handleSave] *)

Section SaveProperties.
Variables F Id : Type.
Variable examplesApi : ExamplesApi F Id.
Variable now : Z.
Variable props : Props.t F.
Implicit Types (st : State) (call : ApiCall F Id) (error : Thrown).

Local Notation "'save_'" := (save examplesApi now props).
Local Notation "'payload_'" := (payload Id now props).
Local Arguments lit : simpl never.

Lemma save_database_resolved st :
  saveMode st = database ->
  createExample examplesApi (payload_ st) = Resolved ->
  save_ st =
  [SetIsSaving true; ConsoleLog (payload_ st);
   Await (CreateExample (payload_ st)) Resolved;
   Notify {| Toast.title := lit "Success";
             Toast.description := lit "Example saved to database successfully";
             Toast.variant := None |};
   SetIsOpen false; SetName (lit ""); SetDescription (lit "");
   SetLocalTags []; SetFilePath (lit ""); SetIsSaving false].
Proof.
  intros Hm Ho. unfold save, handleSave. rewrite Hm. cbn. rewrite Ho. reflexivity.
Qed.

Lemma save_database_rejected st error :
  saveMode st = database ->
  createExample examplesApi (payload_ st) = Rejected error ->
  save_ st =
  [SetIsSaving true; ConsoleLog (payload_ st);
   Await (CreateExample (payload_ st)) (Rejected error);
   ConsoleError error;
   Notify {| Toast.title := lit "Error";
             Toast.description :=
               match error with
               | ErrorInstance message => message
               | OtherValue => lit "Failed to save example"
               end;
             Toast.variant := Some Toast.destructive |};
   SetIsSaving false].
Proof.
  intros Hm Ho. unfold save, handleSave. rewrite Hm. cbn. rewrite Ho. reflexivity.
Qed.

Lemma save_json_blank st :
  saveMode st = json ->
  trim (filePath st) = lit "" ->
  save_ st =
  [SetIsSaving true; ConsoleLog (payload_ st);
   Notify {| Toast.title := lit "Error";
             Toast.description := lit "Please provide a file path for the JSON file.";
             Toast.variant := Some Toast.destructive |};
   SetIsSaving false; SetIsSaving false].
Proof.
  intros Hm Hp. unfold save, handleSave. rewrite Hm, Hp. reflexivity.
Qed.

Lemma save_json_resolved st :
  saveMode st = json ->
  trim (filePath st) <> lit "" ->
  saveToJSON examplesApi (filePath st) (payload_ st) = Resolved ->
  save_ st =
  [SetIsSaving true; ConsoleLog (payload_ st);
   Await (SaveToJSON (filePath st) (payload_ st)) Resolved;
   Notify {| Toast.title := lit "Success";
             Toast.description := lit "Example saved to JSON file successfully";
             Toast.variant := None |};
   SetIsOpen false; SetName (lit ""); SetDescription (lit "");
   SetLocalTags []; SetFilePath (lit ""); SetIsSaving false].
Proof.
  intros Hm Hp Ho. unfold save, handleSave. rewrite Hm.
  destruct (trim (filePath st)) as [| c r]; [ now elim Hp | ].
  cbn. rewrite Ho. reflexivity.
Qed.

Lemma save_json_rejected st error :
  saveMode st = json ->
  trim (filePath st) <> lit "" ->
  saveToJSON examplesApi (filePath st) (payload_ st) = Rejected error ->
  save_ st =
  [SetIsSaving true; ConsoleLog (payload_ st);
   Await (SaveToJSON (filePath st) (payload_ st)) (Rejected error);
   ConsoleError error;
   Notify {| Toast.title := lit "Error";
             Toast.description :=
               match error with
               | ErrorInstance message => message
               | OtherValue => lit "Failed to save example"
               end;
             Toast.variant := Some Toast.destructive |};
   SetIsSaving false].
Proof.
  intros Hm Hp Ho. unfold save, handleSave. rewrite Hm.
  destruct (trim (filePath st)) as [| c r]; [ now elim Hp | ].
  cbn. rewrite Ho. reflexivity.
Qed.

(** Case analysis over the runs: the mode, whether the path is blank, and
    how the promise of the call settles; the trace is rewritten to the
    run's. *)
Ltac save_runs st :=
  let Hm := fresh "Hmode" in
  let Hp := fresh "Hpath" in
  let Ho := fresh "Hout" in
  destruct (saveMode st) eqn:Hm;
  [ destruct (createExample examplesApi (payload_ st)) as [| ?error] eqn:Ho;
    [ rewrite (save_database_resolved st Hm Ho) in *
    | rewrite (save_database_rejected st Hm Ho) in * ]
  | destruct (list_eq_dec N.eq_dec (trim (filePath st)) (lit "")) as [Hp | Hp];
    [ rewrite (save_json_blank st Hm Hp) in *
    | destruct (saveToJSON examplesApi (filePath st) (payload_ st))
        as [| ?error] eqn:Ho;
      [ rewrite (save_json_resolved st Hm Hp Ho) in *
      | rewrite (save_json_rejected st Hm Hp Ho) in * ] ] ].

(** An [In] hypothesis over an explicit trace, element by element. *)
Ltac in_trace H :=
  repeat (destruct H as [H | H]; [ try discriminate H | ]); try contradiction H.

(** ** The handler *)

(** C2. In json mode with a file path that is empty once trimmed, a save
    emits exactly one toast, titled "Error" and asking for a file path,
    makes no API call, and leaves [isOpen], [name], [description],
    [localTags] and [filePath] as they were. *)
Theorem save_json_blank_path st :
  saveMode st = json ->
  trim (filePath st) = lit "" ->
  toasts (save_ st) =
    [ {| Toast.title := lit "Error";
         Toast.description := lit "Please provide a file path for the JSON file.";
         Toast.variant := Some Toast.destructive |} ]
  /\ apiCalls (save_ st) = []
  /\ isOpen (stateAfter st (save_ st)) = isOpen st
  /\ name (stateAfter st (save_ st)) = name st
  /\ description (stateAfter st (save_ st)) = description st
  /\ localTags (stateAfter st (save_ st)) = localTags st
  /\ filePath (stateAfter st (save_ st)) = filePath st.
Proof.
  intros Hm Hp. rewrite (save_json_blank st Hm Hp). repeat split.
Qed.

(** C3. When the persistence call of a save throws, the save emits one
    toast, titled "Error", whose description is the message of the thrown
    value if that is an [Error] instance and "Failed to save example" if
    not; [isOpen], [name], [description], [localTags] and [filePath] are
    left as they were. *)
Theorem save_failure st call error :
  In (Await call (Rejected error)) (save_ st) ->
  toasts (save_ st) =
    [ {| Toast.title := lit "Error";
         Toast.description :=
           match error with
           | ErrorInstance message => message
           | OtherValue => lit "Failed to save example"
           end;
         Toast.variant := Some Toast.destructive |} ]
  /\ isOpen (stateAfter st (save_ st)) = isOpen st
  /\ name (stateAfter st (save_ st)) = name st
  /\ description (stateAfter st (save_ st)) = description st
  /\ localTags (stateAfter st (save_ st)) = localTags st
  /\ filePath (stateAfter st (save_ st)) = filePath st.
Proof.
  intros H. save_runs st; in_trace H;
    injection H as _ <-; repeat split.
Qed.

(** C4. Every save starts by setting [isSaving] to true and ends by
    setting it to false, so [isSaving] is false once the handler is done,
    whichever way it went. *)
Theorem save_isSaving st :
  (exists middle, save_ st = SetIsSaving true :: middle ++ [SetIsSaving false])
  /\ isSaving (stateAfter st (save_ st)) = false.
Proof.
  save_runs st; (split; [ | reflexivity ]);
    match goal with
    | |- exists m, _ :: ?l = _ :: m ++ _ => exists (removelast l); reflexivity
    end.
Qed.

(** C5, amended. A save makes at most one persistence call: in database
    mode it is [createExample(payload)]; in json mode it is
    [saveToJSON(filePath, payload)] when the file path trimmed is
    non-empty, and there is no call when it is empty. *)
Theorem save_apiCalls st :
  apiCalls (save_ st) =
  match saveMode st with
  | database => [CreateExample (payload_ st)]
  | json => if is_empty (trim (filePath st)) then []
            else [SaveToJSON (filePath st) (payload_ st)]
  end.
Proof.
  save_runs st; try reflexivity;
    try rewrite Hpath; try reflexivity;
    (destruct (trim (filePath st)); [ now elim Hpath | reflexivity ]).
Qed.

(** C6. When the persistence call of a save succeeds, the save emits one
    toast, titled "Success", with the message of the mode, closes the
    dialog, and resets [name], [description] and [filePath] to the empty
    string and [localTags] to the empty list. *)
Theorem save_success st call :
  In (Await call Resolved) (save_ st) ->
  toasts (save_ st) =
    [ {| Toast.title := lit "Success";
         Toast.description :=
           match saveMode st with
           | database => lit "Example saved to database successfully"
           | json => lit "Example saved to JSON file successfully"
           end;
         Toast.variant := None |} ]
  /\ isOpen (stateAfter st (save_ st)) = false
  /\ name (stateAfter st (save_ st)) = lit ""
  /\ description (stateAfter st (save_ st)) = lit ""
  /\ filePath (stateAfter st (save_ st)) = lit ""
  /\ localTags (stateAfter st (save_ st)) = [].
Proof.
  intros H. save_runs st; in_trace H; repeat split.
Qed.



(** X21. Behind an enabled save button the name is not empty, and the
    payload carries it: the clock is read only by a save that the button
    does not allow. *)
Lemma payload_name_enabled st :
  saveDisabled props st = false -> Payload.name (payload_ st) = name st.
Proof.
  unfold saveDisabled. rewrite !orb_false_iff. intros [[_ Hn] _].
  unfold payload; cbn [Payload.name].
  destruct (name st) as [| c r]; [ | reflexivity ].
  rewrite trim_nil in Hn. discriminate Hn.
Qed.

Lemma apiCalls_database st :
  saveMode st = database -> apiCalls (save_ st) = [CreateExample (payload_ st)].
Proof.
  intros Hm.
  destruct (createExample examplesApi (payload_ st)) as [| error] eqn:Ho.
  - now rewrite (save_database_resolved st Hm Ho).
  - now rewrite (save_database_rejected st Hm Ho).
Qed.

(** C10. In database mode the file path plays no part in a save: two
    states that differ in [filePath] alone build the same payload and make
    the same single [createExample] call, and indeed the same trace. *)
Theorem save_database_ignores_filePath s1 s2 :
  sameButFilePath s1 s2 ->
  saveMode s1 = database ->
  payload_ s1 = payload_ s2
  /\ apiCalls (save_ s1) = [CreateExample (payload_ s1)]
  /\ apiCalls (save_ s2) = [CreateExample (payload_ s2)]
  /\ save_ s1 = save_ s2.
Proof.
  intros (Ho & Hs & Hn & Hd & Ht & Hm) Hdb.
  assert (Hdb2 : saveMode s2 = database) by congruence.
  assert (Hp : payload_ s1 = payload_ s2).
  { unfold payload. now rewrite Hn, Hd, Ht. }
  repeat split.
  - exact Hp.
  - exact (apiCalls_database s1 Hdb).
  - exact (apiCalls_database s2 Hdb2).
  - unfold save, handleSave. rewrite Hdb, Hdb2, Hp. reflexivity.
Qed.
(** ** More on the handler *)

Lemma save_ext s1 s2 :
  name s1 = name s2 -> description s1 = description s2 ->
  localTags s1 = localTags s2 -> saveMode s1 = saveMode s2 ->
  filePath s1 = filePath s2 ->
  forall (api : ExamplesApi F Id) (time : Z),
    save api time props s1 = save api time props s2.
Proof.
  intros Hn Hd Ht Hm Hp api time.
  unfold save, handleSave, payload. now rewrite Hn, Hd, Ht, Hm, Hp.
Qed.

(** X11. The promise of [handleSave] never rejects: whatever the API
    does, the handler completes normally or by its [return]. *)
Theorem handleSave_never_throws st error :
  snd (handleSave examplesApi now props st) <> Throw error.
Proof.
  unfold handleSave. destruct (saveMode st).
  - cbn. destruct (createExample examplesApi (payload_ st)); discriminate.
  - destruct (trim (filePath st)) as [| c r]; [ discriminate | ].
    cbn. destruct (saveToJSON examplesApi (filePath st) (payload_ st)); discriminate.
Qed.

(** X12. Every save ends in exactly one toast. *)
Theorem save_one_toast st : length (toasts (save_ st)) = 1.
Proof. save_runs st; reflexivity. Qed.

(** X14. A save that did not get through can be tried again as it was:
    the state it leaves makes any later save do what it would have done
    from the state before. *)
Theorem save_retry st :
  (forall call, ~ In (Await call Resolved) (save_ st)) ->
  forall (api : ExamplesApi F Id) (time : Z),
    save api time props (stateAfter st (save_ st)) = save api time props st.
Proof.
  intros H. assert (Hsame : name (stateAfter st (save_ st)) = name st
    /\ description (stateAfter st (save_ st)) = description st
    /\ localTags (stateAfter st (save_ st)) = localTags st
    /\ saveMode (stateAfter st (save_ st)) = saveMode st
    /\ filePath (stateAfter st (save_ st)) = filePath st).
  { save_runs st;
      try (repeat split; cbn; solve [ assumption | reflexivity ]);
      exfalso; eapply H; right; right; left; reflexivity. }
  destruct Hsame as (Hn & Hd & Ht & Hm & Hp). now apply save_ext.
Qed.

(** X15. After a save that got through the name is empty, so the save
    button is disabled. *)
Theorem save_success_disables st call :
  In (Await call Resolved) (save_ st) ->
  saveDisabled props (stateAfter st (save_ st)) = true.
Proof.
  intros H. save_runs st; in_trace H; reflexivity.
Qed.

(** X16. Opening the dialog again after a save that got through seeds
    the name and the tags from the props; the description and the file
    path are empty, and the save mode is the one of the save. *)
Theorem reopen_after_success st call :
  In (Await call Resolved) (save_ st) ->
  let saved := stateAfter st (save_ st) in
  let opened := stateAfter saved (fst (onOpenChange F Id true)) in
  stateAfter opened (fst (openEffect Id props opened)) =
  {| isOpen := true;
     isSaving := false;
     name := Props.exampleName props;
     description := lit "";
     localTags := Props.tags props;
     saveMode := saveMode st;
     filePath := lit "" |}.
Proof.
  intros H. save_runs st; in_trace H; cbv zeta; cbn; f_equal; assumption.
Qed.

(** X17. Closing the dialog and opening it again throws away what was
    typed for the name and the tags, which are seeded from the props
    again, and keeps the description, the save mode and the file path;
    while the dialog is closed the effect does nothing. *)
Theorem cancel_reopen st :
  let closed := stateAfter st (fst (cancel F Id)) in
  let opened := stateAfter closed (fst (onOpenChange F Id true)) in
  fst (openEffect Id props closed) = []
  /\ stateAfter opened (fst (openEffect Id props opened)) =
     {| isOpen := true;
        isSaving := isSaving st;
        name := Props.exampleName props;
        description := description st;
        localTags := Props.tags props;
        saveMode := saveMode st;
        filePath := filePath st |}.
Proof. split; reflexivity. Qed.

(** X19. When the messages hold no blank chunk and no empty message, the
    payload carries them as they are. *)
Theorem payload_messages_clean st :
  Forall (@clean F) (Props.messages props) ->
  Payload.messages (payload_ st) = Props.messages props.
Proof. intros H. unfold payload; cbn [Payload.messages]. now apply filteredMessages_fixed. Qed.

End SaveProperties.

(** ** The save button *)

(** C7, amended. The save button is disabled exactly when a save is in
    flight, or the name trimmed is empty, or there are no messages. *)
Theorem saveDisabled_iff F (props : Props.t F) (st : State) :
  saveDisabled props st = true <->
  isSaving st = true \/ trim (name st) = lit "" \/ Props.messages props = [].
Proof.
  unfold saveDisabled, truthy.
  rewrite !orb_true_iff, negb_involutive, is_empty_true, Nat.eqb_eq, length_zero_iff_nil.
  tauto.
Qed.

(** * The scenarios, run *)

(** Scenario 3 of the specification: the payload sent for "Greeting". *)
Example scenario_greeting_payload :
  apiCalls (save Sample.online Sample.now Sample.props Sample.greeting) =
  [ CreateExample
      {| Payload.name := lit "Greeting";
         Payload.description := lit "";
         Payload.messages :=
           [ {| fields := tt;
                chunks := [ {| kind := KindLabel (lit "CONTENT");
                               text := Some (lit "Hello") |} ] |} ];
         Payload.tags := [];
         Payload.is_global := true;
         Payload.is_eval := false;
         Payload.readable_by_user_ids := [];
         Payload.readable_by_group_ids := [] |} ].
Proof. reflexivity. Qed.

(** Witness of C2: json mode, a file path of two spaces. *)
Lemma save_json_blank_path_witness :
  saveMode Sample.jsonBlank = json
  /\ trim (filePath Sample.jsonBlank) = lit ""
  /\ toasts (save Sample.online Sample.now Sample.props Sample.jsonBlank) =
       [ {| Toast.title := lit "Error";
            Toast.description := lit "Please provide a file path for the JSON file.";
            Toast.variant := Some Toast.destructive |} ]
  /\ apiCalls (save Sample.online Sample.now Sample.props Sample.jsonBlank) = []
  /\ isOpen (stateAfter Sample.jsonBlank
               (save Sample.online Sample.now Sample.props Sample.jsonBlank)) = true.
Proof.
  split; [ reflexivity | split; [ reflexivity | ] ].
  pose proof (@save_json_blank_path unit Z Sample.online Sample.now Sample.props
                Sample.jsonBlank eq_refl eq_refl) as (Ht & Hc & Ho & _).
  exact (conj Ht (conj Hc Ho)).
Defined.

(** Witness of C3: the API is down, the toast says so and the dialog stays
    as it was. *)
Lemma save_failure_witness :
  In (Await (CreateExample (payload Z Sample.now Sample.props Sample.greeting))
        (Rejected (ErrorInstance (lit "network down"))))
     (save Sample.offline Sample.now Sample.props Sample.greeting)
  /\ toasts (save Sample.offline Sample.now Sample.props Sample.greeting) =
       [ {| Toast.title := lit "Error";
            Toast.description := lit "network down";
            Toast.variant := Some Toast.destructive |} ]
  /\ isOpen (stateAfter Sample.greeting
               (save Sample.offline Sample.now Sample.props Sample.greeting)) = true
  /\ name (stateAfter Sample.greeting
             (save Sample.offline Sample.now Sample.props Sample.greeting)) = lit "Greeting".
Proof.
  assert (H : In (Await (CreateExample (payload Z Sample.now Sample.props Sample.greeting))
                    (Rejected (ErrorInstance (lit "network down"))))
                 (save Sample.offline Sample.now Sample.props Sample.greeting)).
  { right; right; left; reflexivity. }
  split; [ exact H | ].
  pose proof (save_failure Sample.offline Sample.now Sample.props Sample.greeting _ _ H)
    as (Ht & Ho & Hn & _).
  exact (conj Ht (conj Ho Hn)).
Defined.

(** Witness of C6: a json save that goes through. *)
Lemma save_success_witness :
  In (Await (SaveToJSON (lit "/mnt/examples/example1.json")
               (payload Z Sample.now Sample.props Sample.jsonPath)) Resolved)
     (save Sample.online Sample.now Sample.props Sample.jsonPath)
  /\ toasts (save Sample.online Sample.now Sample.props Sample.jsonPath) =
       [ {| Toast.title := lit "Success";
            Toast.description := lit "Example saved to JSON file successfully";
            Toast.variant := None |} ]
  /\ isOpen (stateAfter Sample.jsonPath
               (save Sample.online Sample.now Sample.props Sample.jsonPath)) = false
  /\ name (stateAfter Sample.jsonPath
             (save Sample.online Sample.now Sample.props Sample.jsonPath)) = lit "".
Proof.
  assert (H : In (Await (SaveToJSON (lit "/mnt/examples/example1.json")
                           (payload Z Sample.now Sample.props Sample.jsonPath)) Resolved)
                 (save Sample.online Sample.now Sample.props Sample.jsonPath)).
  { right; right; left; reflexivity. }
  split; [ exact H | ].
  pose proof (save_success Sample.online Sample.now Sample.props Sample.jsonPath _ H)
    as (Ht & Ho & Hn & _).
  exact (conj Ht (conj Ho Hn)).
Defined.

(** Witness of C10: "Greeting" saved to the database with and without a
    file path typed in. *)
Lemma save_database_ignores_filePath_witness :
  sameButFilePath Sample.greeting Sample.greetingWithPath
  /\ saveMode Sample.greeting = database
  /\ filePath Sample.greeting <> filePath Sample.greetingWithPath
  /\ save Sample.offline Sample.now Sample.props Sample.greeting =
     save Sample.offline Sample.now Sample.props Sample.greetingWithPath.
Proof.
  assert (Hs : sameButFilePath Sample.greeting Sample.greetingWithPath)
    by (repeat split).
  split; [ exact Hs | split; [ reflexivity | split; [ discriminate | ] ] ].
  exact (proj2 (proj2 (proj2
    (save_database_ignores_filePath Sample.offline Sample.now Sample.props Hs eq_refl)))).
Defined.

(** C5 as stated fails: in json mode with a blank file path a save makes
    no persistence call at all. *)
Lemma save_json_blank_makes_no_call :
  saveMode Sample.jsonBlank = json
  /\ apiCalls (save Sample.online Sample.now Sample.props Sample.jsonBlank) = []
  /\ length (apiCalls (save Sample.online Sample.now Sample.props Sample.jsonBlank)) <> 1.
Proof. repeat split; discriminate. Qed.

(** C7 as stated fails: while a save is in flight the button is disabled
    although the name is not blank and there are messages. *)
Lemma saveDisabled_while_saving :
  ~ (saveDisabled Sample.props Sample.saving = true <->
     trim (name Sample.saving) = lit "" \/ Props.messages Sample.props = []).
Proof. intros [H _]. destruct (H eq_refl) as [H' | H']; discriminate H'. Qed.

(** From a state with the name left empty, where the save button is
    disabled, a save would name the payload from the clock. *)
Example scenario_unnamed :
  saveDisabled Sample.props Sample.unnamed = true
  /\ payloads (save Sample.online Sample.now Sample.props Sample.unnamed) <> []
  /\ Forall (fun p => Payload.name p = lit "Example 1700000000000")
       (payloads (save Sample.online Sample.now Sample.props Sample.unnamed)).
Proof.
  split; [ reflexivity | split; [ discriminate | ] ].
  repeat constructor.
Qed.

(** Scenario 1: a message of blank text alone keeps the button enabled,
    and is filtered away from what is sent. *)
Example scenario_blank_message :
  let blank := {| Props.messages :=
                    [ {| fields := tt;
                         chunks := [ {| kind := KindMissing; text := Some (lit "  ") |} ] |} ];
                  Props.tags := [];
                  Props.exampleName := lit "Greeting" |} in
  saveDisabled blank Sample.greeting = false
  /\ Payload.messages (payload Z Sample.now blank Sample.greeting) = [].
Proof. split; reflexivity. Qed.

(** Scenario 4: the call rejects with [Error("network down")]. *)
Example scenario_network_down :
  save Sample.offline Sample.now Sample.props Sample.greeting =
  [ SetIsSaving true;
    ConsoleLog (payload Z Sample.now Sample.props Sample.greeting);
    Await (CreateExample (payload Z Sample.now Sample.props Sample.greeting))
      (Rejected (ErrorInstance (lit "network down")));
    ConsoleError (ErrorInstance (lit "network down"));
    Notify {| Toast.title := lit "Error";
              Toast.description := lit "network down";
              Toast.variant := Some Toast.destructive |};
    SetIsSaving false ].
Proof. reflexivity. Qed.

(** * The rest of the dialog *)

(** ** More on strings *)

Lemma trimStart_keeps c r : isWhiteSpace c = false -> trimStart (c :: r) = c :: r.
Proof. intros H; simpl; now rewrite H. Qed.

Lemma trimStart_skips c r : isWhiteSpace c = true -> trimStart (c :: r) = trimStart r.
Proof. intros H; simpl; now rewrite H. Qed.

Lemma trimStart_trimStart s : trimStart (trimStart s) = trimStart s.
Proof.
  destruct (trimStart s) as [| c r] eqn:Hs; [ reflexivity | ].
  apply trimStart_keeps. now apply trimStart_head in Hs.
Qed.

Lemma trimStart_snoc l c :
  isWhiteSpace c = false -> trimStart (l ++ [c]) = trimStart l ++ [c].
Proof.
  intros Hc; induction l as [| d l IH]; simpl; [ now rewrite Hc | ].
  destruct (isWhiteSpace d); [ exact IH | reflexivity ].
Qed.

Lemma trimStart_snoc_blank l c :
  isWhiteSpace c = true ->
  trimStart (l ++ [c]) = match trimStart l with [] => [] | y => y ++ [c] end.
Proof.
  intros Hc; induction l as [| d l IH]; simpl; [ now rewrite Hc | ].
  destruct (isWhiteSpace d); [ exact IH | reflexivity ].
Qed.

Lemma trimEnd_cons c r :
  isWhiteSpace c = false -> trimEnd (c :: r) = c :: trimEnd r.
Proof.
  intros Hc; unfold trimEnd; simpl.
  rewrite trimStart_snoc by exact Hc. now rewrite rev_app_distr.
Qed.

Lemma trimEnd_snoc_blank y c :
  isWhiteSpace c = true -> trimEnd (y ++ [c]) = trimEnd y.
Proof.
  intros Hc; unfold trimEnd. rewrite rev_app_distr. simpl app. now rewrite trimStart_skips.
Qed.

Lemma trimEnd_trimEnd s : trimEnd (trimEnd s) = trimEnd s.
Proof. unfold trimEnd. now rewrite rev_involutive, trimStart_trimStart. Qed.

Lemma trimStart_trim s : trimStart (trim s) = trim s.
Proof.
  unfold trim. destruct (trimStart s) as [| c r] eqn:Hs; [ reflexivity | ].
  assert (Hc : isWhiteSpace c = false) by now apply trimStart_head in Hs.
  rewrite trimEnd_cons by exact Hc. now apply trimStart_keeps.
Qed.

(** Trimming twice is trimming once. *)
Lemma trim_trim s : trim (trim s) = trim s.
Proof.
  unfold trim at 1. rewrite trimStart_trim. unfold trim. apply trimEnd_trimEnd.
Qed.

Lemma trim_cons_blank c s : isWhiteSpace c = true -> trim (c :: s) = trim s.
Proof. intros Hc; unfold trim. now rewrite trimStart_skips. Qed.

Lemma trim_snoc_blank s c : isWhiteSpace c = true -> trim (s ++ [c]) = trim s.
Proof.
  intros Hc; unfold trim. rewrite trimStart_snoc_blank by exact Hc.
  destruct (trimStart s) as [| d r]; [ reflexivity | ].
  now apply trimEnd_snoc_blank.
Qed.

Lemma In_trimStart x s : In x (trimStart s) -> In x s.
Proof.
  induction s as [| c r IH]; simpl; [ tauto | ].
  destruct (isWhiteSpace c); [ right; now apply IH | exact (fun H => H) ].
Qed.

(** Trimming adds no code unit. *)
Lemma In_trim x s : In x (trim s) -> In x s.
Proof.
  unfold trim, trimEnd. intros H.
  apply In_trimStart. apply in_rev. apply In_trimStart. now apply in_rev in H.
Qed.

Lemma split_nonempty sep s : split sep s <> [].
Proof.
  destruct s as [| c r]; simpl; [ discriminate | ].
  destruct (c =? sep)%N; [ discriminate | ].
  destruct (split sep r); discriminate.
Qed.

Lemma split_cons_other sep c r :
  c <> sep ->
  split sep (c :: r) = (c :: hd [] (split sep r)) :: tl (split sep r).
Proof.
  intros Hc; simpl. destruct (N.eqb_spec c sep) as [-> | _]; [ now elim Hc | ].
  pose proof (split_nonempty sep r). destruct (split sep r); [ contradiction | reflexivity ].
Qed.

Lemma split_cons_sep sep r : split sep (sep :: r) = [] :: split sep r.
Proof. simpl. now rewrite N.eqb_refl. Qed.

(** Splitting at a separator splits the pieces. *)
Lemma split_app sep a b :
  split sep (a ++ sep :: b) = split sep a ++ split sep b.
Proof.
  induction a as [| c a IH].
  - simpl. now rewrite N.eqb_refl.
  - simpl. destruct (c =? sep)%N; rewrite IH; [ reflexivity | ].
    pose proof (split_nonempty sep a). destruct (split sep a); [ contradiction | reflexivity ].
Qed.

Lemma split_whole sep s : ~ In sep s -> split sep s = [s].
Proof.
  induction s as [| c r IH]; [ reflexivity | ].
  intros H. rewrite split_cons_other, IH; [ reflexivity | | ].
  - intros Hr; apply H; now right.
  - intros ->; apply H; now left.
Qed.

Lemma split_pieces sep s : Forall (fun piece => ~ In sep piece) (split sep s).
Proof.
  induction s as [| c r IH]; [ repeat constructor; tauto | ].
  destruct (N.eq_dec c sep) as [-> | Hc].
  - rewrite split_cons_sep. constructor; [ tauto | exact IH ].
  - rewrite split_cons_other by exact Hc.
    pose proof (split_nonempty sep r). destruct (split sep r) as [| h t]; [ contradiction | ].
    inversion IH as [| ? ? Hh Ht]; subst. constructor; [ | exact Ht ].
    simpl. intros [-> | Hin]; [ now elim Hc | now apply Hh ].
Qed.

(** Appending text without separator lengthens the last piece. *)
Lemma split_app_tail sep s t :
  ~ In sep t ->
  split sep (s ++ t) =
  removelast (split sep s) ++ [last (split sep s) [] ++ t].
Proof.
  intros Ht; induction s as [| c r IH].
  - simpl. now apply split_whole.
  - pose proof (split_nonempty sep r) as Hne.
    destruct (N.eq_dec c sep) as [-> | Hc].
    + change ((sep :: r) ++ t) with (sep :: (r ++ t)).
      rewrite !split_cons_sep, IH.
      destruct (split sep r) as [| h tl]; [ contradiction | reflexivity ].
    + change ((c :: r) ++ t) with (c :: (r ++ t)).
      rewrite !split_cons_other by exact Hc. rewrite IH.
      destruct (split sep r) as [| h [| h2 tl]]; [ contradiction | reflexivity | reflexivity ].
Qed.

(** ** The tags field *)

Lemma isWhiteSpace_not_comma c : isWhiteSpace c = true -> c <> 44%N.
Proof. intros H ->. discriminate H. Qed.

Lemma parseTags_whole x : tidy x -> parseTags x = [x].
Proof.
  intros (Hne & Htrim & Hcomma). unfold parseTags.
  rewrite split_whole by exact Hcomma. simpl. rewrite Htrim.
  destruct x; [ now elim Hne | reflexivity ].
Qed.

Lemma parseTags_cons_blank c v :
  isWhiteSpace c = true -> parseTags (c :: v) = parseTags v.
Proof.
  intros Hc. unfold parseTags.
  rewrite split_cons_other by now apply isWhiteSpace_not_comma.
  pose proof (split_nonempty 44%N v). destruct (split 44%N v) as [| h t]; [ contradiction | ].
  simpl. now rewrite trim_cons_blank.
Qed.

Lemma parseTags_tidy v : Forall tidy (parseTags v).
Proof.
  unfold parseTags. apply Forall_forall. intros tag Htag.
  apply filter_In in Htag as [Hin Hne]. apply in_map_iff in Hin as (piece & <- & Hpiece).
  repeat split.
  - intros H. rewrite H in Hne. discriminate Hne.
  - apply trim_trim.
  - intros H. apply In_trim in H.
    pose proof (split_pieces 44%N v) as Hall. rewrite Forall_forall in Hall.
    exact (Hall _ Hpiece H).
Qed.

Lemma parseTags_join l : Forall tidy l -> parseTags (join (lit ", ") l) = l.
Proof.
  induction 1 as [| x l Hx Hl IH]; [ reflexivity | ].
  destruct l as [| y l].
  - now apply parseTags_whole.
  - change (join (lit ", ") (x :: y :: l))
      with (x ++ 44%N :: 32%N :: join (lit ", ") (y :: l)).
    unfold parseTags. rewrite split_app, map_app, filter_app.
    fold (parseTags x). fold (parseTags (32%N :: join (lit ", ") (y :: l))).
    rewrite (parseTags_whole Hx), parseTags_cons_blank by reflexivity.
    now rewrite IH.
Qed.

Section TagsField.
Variables F Id : Type.
Implicit Types (st : State) (value : jsstring).

Local Notation "'typed' st value" :=
  (stateAfter st (fst (tagsOnChange F Id value)))
  (at level 10, st at level 9, value at level 9).

(** X1. Whatever is typed into the tags field, the tags kept are tidy:
    none is empty, none has white space around it, none holds a comma. *)
Theorem tagsOnChange_tidy st value :
  Forall tidy (localTags (typed st value))
  /\ localTags (typed st value) = parseTags value.
Proof. split; [ apply parseTags_tidy | reflexivity ]. Qed.

(** X2. The text the tags field shows reads back as the tags it was made
    from, provided these are tidy. *)
Theorem tagsValue_round_trip st :
  Forall tidy (localTags st) -> parseTags (tagsValue st) = localTags st.
Proof. apply parseTags_join. Qed.

(** X3. The tags field is stable: once something was typed, feeding the
    field its own text back changes neither the tags nor the text. *)
Theorem tagsOnChange_stable st value :
  localTags (typed (typed st value) (tagsValue (typed st value)))
  = localTags (typed st value)
  /\ tagsValue (typed (typed st value) (tagsValue (typed st value)))
     = tagsValue (typed st value).
Proof.
  assert (H : parseTags (tagsValue (typed st value)) = localTags (typed st value))
    by (apply parseTags_join, parseTags_tidy).
  split; [ exact H | unfold tagsValue; now f_equal ].
Qed.

(** X4. A comma cuts the field in two: the tags of [a,b] are the tags of
    [a] followed by the tags of [b]. *)
Theorem parseTags_comma a b :
  parseTags (a ++ lit "," ++ b) = parseTags a ++ parseTags b.
Proof.
  change (a ++ lit "," ++ b) with (a ++ 44%N :: b).
  unfold parseTags. now rewrite split_app, map_app, filter_app.
Qed.

(** X5. A comma or a white space typed at the end of the field is lost:
    the tags are those of the text before it. *)
Theorem parseTags_trailing_separator value c :
  c = 44%N \/ isWhiteSpace c = true ->
  parseTags (value ++ [c]) = parseTags value.
Proof.
  intros [-> | Hc]; unfold parseTags.
  - rewrite split_app, map_app, filter_app. simpl. apply app_nil_r.
  - rewrite split_app_tail.
    2:{ intros [E | []]. subst c. discriminate Hc. }
    pose proof (split_nonempty 44%N value) as Hne.
    rewrite (app_removelast_last [] Hne) at 3.
    rewrite !map_app. simpl. now rewrite trim_snoc_blank.
Qed.
End TagsField.

(** ** Numbers in keys *)

Lemma lit_inj s t : lit s = lit t -> s = t.
Proof.
  unfold lit. intros H.
  rewrite <- (string_of_list_ascii_of_string s), <- (string_of_list_ascii_of_string t).
  f_equal. revert H.
  generalize (list_ascii_of_string s) (list_ascii_of_string t).
  induction l as [| a l IH]; intros [| b l']; simpl; try discriminate; [ reflexivity | ].
  intros [= Ha Hl]. f_equal; [ | now apply IH ].
  now rewrite <- (ascii_N_embedding a), Ha, ascii_N_embedding.
Qed.

Lemma to_int_proper z :
  Z.to_int z <> Decimal.Pos Decimal.Nil /\ Z.to_int z <> Decimal.Neg Decimal.Nil.
Proof.
  destruct z; simpl; split; try discriminate;
    intros [= H]; now apply DecimalPos.Unsigned.to_uint_nonnil in H.
Qed.

(** Different numbers print differently. *)
Lemma number_to_string_inj a b : number_to_string a = number_to_string b -> a = b.
Proof.
  intros H. apply lit_inj in H. apply DecimalZ.to_int_inj.
  destruct (to_int_proper a) as [Ha Ha'], (to_int_proper b) as [Hb Hb'].
  pose proof (NilZero.isi _ Ha Ha') as Ia. pose proof (NilZero.isi _ Hb Hb') as Ib.
  rewrite H in Ia. congruence.
Qed.

Lemma digits_no_dash d : ~ In 45%N (lit (NilEmpty.string_of_uint d)).
Proof.
  induction d; cbn; [ tauto | intros [H | H]; [ discriminate H | tauto ] .. ].
Qed.

(** An index prints without a dash. *)
Lemma index_no_dash (n : nat) : ~ In 45%N (number_to_string (Z.of_nat n)).
Proof.
  unfold number_to_string. destruct (Z.of_nat n) as [| p | p] eqn:E; [ | | lia ].
  - cbn. intros [H | []]. discriminate H.
  - cbn [Z.to_int NilZero.string_of_int]. unfold NilZero.string_of_uint.
    pose proof (DecimalPos.Unsigned.to_uint_nonnil p) as Hp.
    destruct (Pos.to_uint p) eqn:Hd; [ now elim Hp | .. ]; apply digits_no_dash.
Qed.

Lemma dash_cut (a a' b b' : jsstring) :
  ~ In 45%N a -> ~ In 45%N a' ->
  a ++ 45%N :: b = a' ++ 45%N :: b' -> a = a' /\ b = b'.
Proof.
  revert a'. induction a as [| x a IH]; intros [| y a']; simpl; intros Ha Ha' H.
  - injection H as ->. now split.
  - injection H as H1 H2. elim Ha'. left. congruence.
  - injection H as H1 H2. elim Ha. left. congruence.
  - injection H as -> H2. destruct (IH a') as [-> ->]; tauto.
Qed.

(** The key of a row tells the message and the chunk. *)
Lemma rowKey_inj m c m' c' : rowKey m c = rowKey m' c' -> m = m' /\ c = c'.
Proof.
  unfold rowKey. change (lit "-") with [45%N]. simpl app. intros H.
  apply dash_cut in H as [Hm Hc]; try apply index_no_dash.
  apply number_to_string_inj in Hm, Hc. split; now apply Nat2Z.inj.
Qed.

(** ** The preview and the chunk count *)

Lemma indexed_from_keys m (l : list Chunk) j :
  NoDup (map (fun '(cIdx, _) => rowKey m cIdx) (combine (seq j (length l)) l))
  /\ forall k, In k (map (fun '(cIdx, _) => rowKey m cIdx) (combine (seq j (length l)) l)) ->
       exists c, j <= c /\ k = rowKey m c.
Proof.
  revert j. induction l as [| chunk l IH]; intros j; simpl.
  - split; [ constructor | intros k [] ].
  - destruct (IH (S j)) as [Hnd Hin]. split.
    + constructor; [ | exact Hnd ].
      intros H. apply Hin in H as (c & Hc & E).
      apply rowKey_inj in E as [_ E]. lia.
    + intros k [<- | H]; [ exists j; split; [ lia | reflexivity ] | ].
      apply Hin in H as (c & Hc & E). exists c. split; [ lia | exact E ].
Qed.

Section PreviewProperties.
Variable F : Type.
Variable ChunkKind : Z -> option jsstring.
Implicit Types (messages : list (Content F)) (chunk : Chunk).

Lemma chunkCount_from messages a :
  fold_left (fun acc (msg : Content F) => acc + length (chunks msg)) messages a
  = a + chunkCount messages.
Proof.
  unfold chunkCount. revert a. induction messages as [| msg messages IH]; intros a; simpl.
  - lia.
  - rewrite IH, (IH (length (chunks msg))). lia.
Qed.

Lemma chunkCount_cons (msg : Content F) messages :
  chunkCount (msg :: messages) = length (chunks msg) + chunkCount messages.
Proof. unfold chunkCount at 1. simpl. apply chunkCount_from. Qed.

Lemma chunkCount_flat messages :
  chunkCount messages = length (flat_map (@chunks F) messages).
Proof.
  induction messages as [| msg messages IH]; [ reflexivity | ].
  rewrite chunkCount_cons. simpl. now rewrite length_app, IH.
Qed.

Lemma indexed_length {A} (l : list A) : length (indexed l) = length l.
Proof. unfold indexed. rewrite length_combine, length_seq. apply Nat.min_id. Qed.

Lemma rows_from_length {B} (g : nat -> nat -> Chunk -> B) messages k :
  length (flat_map (fun '(mIdx, msg) =>
            map (fun '(cIdx, chunk) => g mIdx cIdx chunk) (indexed (chunks msg)))
            (combine (seq k (length messages)) messages))
  = chunkCount messages.
Proof.
  revert k. induction messages as [| msg messages IH]; intros k; [ reflexivity | ].
  simpl. rewrite length_app, length_map, indexed_length, IH, chunkCount_cons. reflexivity.
Qed.

Lemma previewRows_keys_from messages k :
  map key (flat_map (fun '(mIdx, msg) =>
             map (fun '(cIdx, chunk) =>
               {| key := rowKey mIdx cIdx;
                  label := kindLabel ChunkKind chunk;
                  body := excerpt chunk |})
               (indexed (chunks msg)))
             (combine (seq k (length messages)) messages))
  = rowKeysFrom k messages.
Proof.
  unfold rowKeysFrom. revert k.
  induction messages as [| msg messages IH]; intros k; [ reflexivity | ].
  simpl. rewrite map_app, map_map, IH. f_equal.
  apply map_ext. now intros [cIdx chunk].
Qed.

Lemma rowKeysFrom_spec messages k :
  NoDup (rowKeysFrom k messages)
  /\ forall x, In x (rowKeysFrom k messages) -> exists m c, k <= m /\ x = rowKey m c.
Proof.
  unfold rowKeysFrom. revert k.
  induction messages as [| msg messages IH]; intros k; simpl.
  - split; [ constructor | intros x [] ].
  - destruct (IH (S k)) as [Hnd Hin].
    destruct (indexed_from_keys k (chunks msg) 0) as [Hnd0 Hin0].
    fold (indexed (chunks msg)) in Hnd0, Hin0. split.
    + apply NoDup_app; [ exact Hnd0 | exact Hnd | ].
      intros x H0 H. apply Hin0 in H0 as (c & _ & ->).
      apply Hin in H as (m & c' & Hm & E). apply rowKey_inj in E as [E _]. lia.
    + intros x H. apply in_app_or in H as [H | H].
      * apply Hin0 in H as (c & _ & ->). exists k, c. split; [ lia | reflexivity ].
      * apply Hin in H as (m & c & Hm & ->). exists m, c. split; [ lia | reflexivity ].
Qed.

(** X6. With no message the preview shows the notice, and the number in
    its label is 0; with messages it shows the rows, one for each chunk,
    and the number in its label is the number of rows. *)
Theorem preview_chunkCount (props : Props.t F) :
  match Props.messages props with
  | [] =>
      preview ChunkKind props = NoMessages
      /\ chunkCount (Props.messages props) = 0
  | _ :: _ =>
      preview ChunkKind props = Rows (previewRows ChunkKind (Props.messages props))
      /\ length (previewRows ChunkKind (Props.messages props))
         = chunkCount (Props.messages props)
  end.
Proof.
  unfold preview. destruct (Props.messages props) as [| msg messages] eqn:E.
  - split; reflexivity.
  - split; [ reflexivity | ].
    unfold previewRows, indexed. apply rows_from_length.
Qed.

(** X7. The rows of the preview have keys that differ from one another. *)
Theorem previewRows_keys messages :
  NoDup (map key (previewRows ChunkKind messages)).
Proof.
  unfold previewRows, indexed. rewrite previewRows_keys_from.
  apply rowKeysFrom_spec.
Qed.

(** X8. The chunks a save sends are the chunks of the messages that the
    filter keeps; they are at most as many as the label of the preview
    counts, which counts the blank ones too. *)
Theorem chunkCount_filteredMessages messages :
  chunkCount (filteredMessages messages)
  = length (filter keepChunk (flat_map (@chunks F) messages))
  /\ chunkCount (filteredMessages messages) <= chunkCount messages.
Proof.
  assert (H : chunkCount (filteredMessages messages)
              = length (filter keepChunk (flat_map (@chunks F) messages))).
  { induction messages as [| msg messages IH]; [ reflexivity | ].
    rewrite filteredMessages_cons. simpl flat_map. rewrite filter_app, length_app, <- IH.
    destruct (filter keepChunk (chunks msg)) as [| chunk kept]; [ reflexivity | ].
    now rewrite chunkCount_cons. }
  split; [ exact H | ].
  rewrite H, chunkCount_flat. apply filter_length_le.
Qed.

(** X9. The label of a row is never empty, whatever the kind of the chunk
    and whatever names the enum has. *)
Theorem kindLabel_nonempty chunk : kindLabel ChunkKind chunk <> lit "".
Proof.
  assert (H : forall s, or_else s (lit "CONTENT") <> lit "").
  { intros [| c r]; discriminate. }
  unfold kindLabel. destruct (kind chunk) as [n | s |];
    [ destruct (ChunkKind n) | | ]; solve [ apply H | discriminate ].
Qed.

(** X10. The text of a row is the first 100 code units of the text of the
    chunk, and the whole text when that is no longer. *)
Theorem excerpt_prefix chunk t :
  text chunk = Some t ->
  (exists rest, t = excerpt chunk ++ rest)
  /\ length (excerpt chunk) = Nat.min 100 (length t)
  /\ (length t <= 100 -> excerpt chunk = t).
Proof.
  intros Ht. unfold excerpt. rewrite Ht.
  assert (E : (if truthy t then substring0 100 t else lit "") = firstn 100 t).
  { destruct t; reflexivity. }
  rewrite E. repeat split.
  - exists (skipn 100 t). symmetry. apply firstn_skipn.
  - apply length_firstn.
  - apply firstn_all2.
Qed.
End PreviewProperties.

(** ** More on the message filter *)

Lemma filter_none {A} (p : A -> bool) (l : list A) :
  filter p l = [] <-> Forall (fun x => p x = false) l.
Proof.
  induction l as [| x l IH]; simpl; [ split; [ constructor | reflexivity ] | ].
  destruct (p x) eqn:Hx; split.
  - discriminate.
  - intros H. inversion H; congruence.
  - intros H. constructor; [ exact Hx | now apply IH ].
  - intros H. inversion H; now apply IH.
Qed.

(** X20. The payload has no message exactly when every chunk of every
    message is blank; that there are messages, which is what the save
    button asks for, is not enough. *)
Theorem filteredMessages_nil_iff F (messages : list (Content F)) :
  filteredMessages messages = [] <->
  Forall (fun content => Forall (fun chunk => keepChunk chunk = false) (chunks content))
    messages.
Proof.
  induction messages as [| content messages IH].
  - split; [ constructor | reflexivity ].
  - rewrite filteredMessages_cons.
    destruct (filter keepChunk (chunks content)) as [| chunk kept] eqn:Hk; split.
    + intros H. constructor; [ now apply filter_none | now apply IH ].
    + intros H. inversion H; now apply IH.
    + discriminate.
    + intros H. inversion H as [| ? ? Hc _]. apply filter_none in Hc. congruence.
Qed.

(** ** The save button, again *)

(** X18. While the button reads "Saving..." it is disabled. *)
Theorem saveLabel_saving F (props : Props.t F) (st : State) :
  saveLabel st = lit "Saving..." ->
  isSaving st = true /\ saveDisabled props st = true.
Proof.
  unfold saveLabel, saveDisabled. destruct (isSaving st); [ now split | ].
  destruct (saveMode st); intros H; apply lit_inj in H; discriminate H.
Qed.

(** * The rest of the dialog, run *)

(** Scenario 5 of the specification: what is typed into the tags field. *)
Example scenario_tags : parseTags (lit "a, b ,, c") = [lit "a"; lit "b"; lit "c"].
Proof. reflexivity. Qed.

Lemma sample_tags_tidy : Forall tidy (localTags Sample.tagged).
Proof.
  repeat constructor; try discriminate;
    intros H; repeat (destruct H as [H | H]; [ discriminate H | ]); exact H.
Defined.

(** Witness of X2: the tags "alpha" and "beta". *)
Lemma tagsValue_round_trip_witness :
  Forall tidy (localTags Sample.tagged)
  /\ tagsValue Sample.tagged = lit "alpha, beta"
  /\ parseTags (tagsValue Sample.tagged) = localTags Sample.tagged.
Proof.
  split; [ exact sample_tags_tidy | split; [ reflexivity | ] ].
  exact (@tagsValue_round_trip Sample.tagged sample_tags_tidy).
Defined.

(** Witness of X5: a comma typed after "alpha, beta". *)
Lemma parseTags_trailing_separator_witness :
  (44%N = 44%N \/ isWhiteSpace 44%N = true)
  /\ parseTags (lit "alpha, beta" ++ [44%N]) = parseTags (lit "alpha, beta").
Proof.
  split; [ left; reflexivity | ].
  exact (@parseTags_trailing_separator (lit "alpha, beta") 44%N (or_introl eq_refl)).
Defined.

(** Witness of X10: the row of "Hello". *)
Lemma excerpt_prefix_witness :
  text Sample.hello = Some (lit "Hello")
  /\ excerpt Sample.hello = lit "Hello".
Proof.
  split; [ reflexivity | ].
  destruct (@excerpt_prefix Sample.hello (lit "Hello") eq_refl) as (_ & _ & H).
  apply H. repeat constructor.
Defined.

Lemma sample_offline_no_success :
  forall call,
    ~ In (Await call Resolved)
        (save Sample.offline Sample.now Sample.props Sample.greeting).
Proof.
  intros call H.
  repeat (destruct H as [H | H]; [ discriminate H | ]); exact H.
Defined.

(** Witness of X14: the API is down, then up. *)
Lemma save_retry_witness :
  (forall call,
     ~ In (Await call Resolved)
         (save Sample.offline Sample.now Sample.props Sample.greeting))
  /\ save Sample.online Sample.now Sample.props
       (stateAfter Sample.greeting
          (save Sample.offline Sample.now Sample.props Sample.greeting))
     = save Sample.online Sample.now Sample.props Sample.greeting.
Proof.
  split; [ exact sample_offline_no_success | ].
  exact (@save_retry unit Z Sample.offline Sample.now Sample.props Sample.greeting
           sample_offline_no_success Sample.online Sample.now).
Defined.

Lemma sample_online_success :
  In (Await (CreateExample (payload Z Sample.now Sample.props Sample.greeting)) Resolved)
     (save Sample.online Sample.now Sample.props Sample.greeting).
Proof. right; right; left; reflexivity. Defined.

(** Witness of X15: "Greeting" saved. *)
Lemma save_success_disables_witness :
  In (Await (CreateExample (payload Z Sample.now Sample.props Sample.greeting)) Resolved)
     (save Sample.online Sample.now Sample.props Sample.greeting)
  /\ saveDisabled Sample.props
       (stateAfter Sample.greeting
          (save Sample.online Sample.now Sample.props Sample.greeting)) = true.
Proof.
  split; [ exact sample_online_success | ].
  exact (@save_success_disables unit Z Sample.online Sample.now Sample.props
           Sample.greeting _ sample_online_success).
Defined.

(** Witness of X16: "Greeting" saved, and the dialog opened again. *)
Lemma reopen_after_success_witness :
  In (Await (CreateExample (payload Z Sample.now Sample.props Sample.greeting)) Resolved)
     (save Sample.online Sample.now Sample.props Sample.greeting)
  /\ (let saved := stateAfter Sample.greeting
                     (save Sample.online Sample.now Sample.props Sample.greeting) in
      let opened := stateAfter saved (fst (onOpenChange unit Z true)) in
      stateAfter opened (fst (openEffect Z Sample.props opened)) =
      {| isOpen := true;
         isSaving := false;
         name := lit "Greeting";
         description := lit "";
         localTags := [];
         saveMode := database;
         filePath := lit "" |}).
Proof.
  split; [ exact sample_online_success | ].
  exact (@reopen_after_success unit Z Sample.online Sample.now Sample.props
           Sample.greeting _ sample_online_success).
Defined.

(** Witness of X18: a save in flight. *)
Lemma saveLabel_saving_witness :
  saveLabel Sample.saving = lit "Saving..."
  /\ saveDisabled Sample.props Sample.saving = true.
Proof.
  split; [ reflexivity | ].
  exact (proj2 (@saveLabel_saving unit Sample.props Sample.saving eq_refl)).
Defined.

(** Witness of X19: one message, "Hello". *)
Lemma payload_messages_clean_witness :
  Forall (@clean unit) (Props.messages Sample.cleanProps)
  /\ Payload.messages (payload Z Sample.now Sample.cleanProps Sample.greeting)
     = Props.messages Sample.cleanProps.
Proof.
  assert (H : Forall (@clean unit) (Props.messages Sample.cleanProps)).
  { repeat constructor. discriminate. }
  split; [ exact H | ].
  exact (@payload_messages_clean unit Z Sample.now Sample.cleanProps Sample.greeting H).
Defined.

(** Witness of X21: "Greeting" behind an enabled button. *)
Lemma payload_name_enabled_witness :
  saveDisabled Sample.props Sample.greeting = false
  /\ Payload.name (payload Z Sample.now Sample.props Sample.greeting) = lit "Greeting".
Proof.
  split; [ reflexivity | ].
  exact (@payload_name_enabled unit Z Sample.now Sample.props Sample.greeting eq_refl).
Defined.

